(** * Platform detector of [eagle-dev/releasing/execution.py]

    The script defines one function,

<<
    def is_windows():
        s = platform.system().lower()
        return s.startswith("win")
>>

    It reads the platform name from the interpreter's environment, lowercases
    it with [str.lower] and tests the prefix with [str.startswith].

    The development has three layers:
    - Python strings as sequences of Unicode code points, with the two
      built-in methods the function calls ([str.lower], [str.startswith]) and
      [str.upper], which the properties about letter case refer to;
    - the interpreter's world (the name the operating system reports, the
      cache in which the [platform] module keeps it, and the rest of the
      process and file-system state) threaded through a small
      state-and-exception monad;
    - [is_windows] itself, statement by statement, and its properties. *)

From Stdlib Require Import NArith List Bool String Ascii Lia.
Import ListNotations.
Local Open Scope N_scope.

(** ** Strings

    A Python [str] is a sequence of code points; a code point is a number
    below [0x110000].  Nothing below needs the bound, so code points are
    plain [N]. *)

Definition codepoint := N.
Definition str := list codepoint.

(** A string literal of the source, character by character. *)
Definition lit (x : string) : str := map N_of_ascii (list_ascii_of_string x).

(** ** Case mapping tables

    [str.lower] and [str.upper] are table driven.  The tables below are those
    of CPython 3.11 (Unicode 14.0.0), run-length compressed: a run
    [Run lo hi k img] maps every [k]-th code point [c] of [lo..hi] to
    [img + (c - lo)].  Code points with a mapping of more than one character
    are listed apart in the [_special] tables; every other code point is
    mapped to itself. *)

Record case_run := Run {
  run_lo : codepoint;
  run_hi : codepoint;
  run_stride : N;
  run_image : codepoint
}.

Definition lower_runs : list case_run :=
  [ Run 0x41 0x5A 1 0x61; Run 0xC0 0xD6 1 0xE0; Run 0xD8 0xDE 1 0xF8;
    Run 0x100 0x12E 2 0x101; Run 0x132 0x136 2 0x133; Run 0x139 0x147 2 0x13A;
    Run 0x14A 0x176 2 0x14B; Run 0x178 0x178 1 0xFF; Run 0x179 0x17D 2 0x17A;
    Run 0x181 0x181 1 0x253; Run 0x182 0x184 2 0x183; Run 0x186 0x186 1 0x254;
    Run 0x187 0x187 1 0x188; Run 0x189 0x18A 1 0x256; Run 0x18B 0x18B 1 0x18C;
    Run 0x18E 0x18E 1 0x1DD; Run 0x18F 0x18F 1 0x259; Run 0x190 0x190 1 0x25B;
    Run 0x191 0x191 1 0x192; Run 0x193 0x193 1 0x260; Run 0x194 0x194 1 0x263;
    Run 0x196 0x196 1 0x269; Run 0x197 0x197 1 0x268; Run 0x198 0x198 1 0x199;
    Run 0x19C 0x19C 1 0x26F; Run 0x19D 0x19D 1 0x272; Run 0x19F 0x19F 1 0x275;
    Run 0x1A0 0x1A4 2 0x1A1; Run 0x1A6 0x1A6 1 0x280; Run 0x1A7 0x1A7 1 0x1A8;
    Run 0x1A9 0x1A9 1 0x283; Run 0x1AC 0x1AC 1 0x1AD; Run 0x1AE 0x1AE 1 0x288;
    Run 0x1AF 0x1AF 1 0x1B0; Run 0x1B1 0x1B2 1 0x28A; Run 0x1B3 0x1B5 2 0x1B4;
    Run 0x1B7 0x1B7 1 0x292; Run 0x1B8 0x1B8 1 0x1B9; Run 0x1BC 0x1BC 1 0x1BD;
    Run 0x1C4 0x1C4 1 0x1C6; Run 0x1C5 0x1C5 1 0x1C6; Run 0x1C7 0x1C7 1 0x1C9;
    Run 0x1C8 0x1C8 1 0x1C9; Run 0x1CA 0x1CA 1 0x1CC; Run 0x1CB 0x1DB 2 0x1CC;
    Run 0x1DE 0x1EE 2 0x1DF; Run 0x1F1 0x1F1 1 0x1F3; Run 0x1F2 0x1F4 2 0x1F3;
    Run 0x1F6 0x1F6 1 0x195; Run 0x1F7 0x1F7 1 0x1BF; Run 0x1F8 0x21E 2 0x1F9;
    Run 0x220 0x220 1 0x19E; Run 0x222 0x232 2 0x223; Run 0x23A 0x23A 1 0x2C65;
    Run 0x23B 0x23B 1 0x23C; Run 0x23D 0x23D 1 0x19A; Run 0x23E 0x23E 1 0x2C66;
    Run 0x241 0x241 1 0x242; Run 0x243 0x243 1 0x180; Run 0x244 0x244 1 0x289;
    Run 0x245 0x245 1 0x28C; Run 0x246 0x24E 2 0x247; Run 0x370 0x372 2 0x371;
    Run 0x376 0x376 1 0x377; Run 0x37F 0x37F 1 0x3F3; Run 0x386 0x386 1 0x3AC;
    Run 0x388 0x38A 1 0x3AD; Run 0x38C 0x38C 1 0x3CC; Run 0x38E 0x38F 1 0x3CD;
    Run 0x391 0x3A1 1 0x3B1; Run 0x3A3 0x3AB 1 0x3C3; Run 0x3CF 0x3CF 1 0x3D7;
    Run 0x3D8 0x3EE 2 0x3D9; Run 0x3F4 0x3F4 1 0x3B8; Run 0x3F7 0x3F7 1 0x3F8;
    Run 0x3F9 0x3F9 1 0x3F2; Run 0x3FA 0x3FA 1 0x3FB; Run 0x3FD 0x3FF 1 0x37B;
    Run 0x400 0x40F 1 0x450; Run 0x410 0x42F 1 0x430; Run 0x460 0x480 2 0x461;
    Run 0x48A 0x4BE 2 0x48B; Run 0x4C0 0x4C0 1 0x4CF; Run 0x4C1 0x4CD 2 0x4C2;
    Run 0x4D0 0x52E 2 0x4D1; Run 0x531 0x556 1 0x561; Run 0x10A0 0x10C5 1 0x2D00;
    Run 0x10C7 0x10C7 1 0x2D27; Run 0x10CD 0x10CD 1 0x2D2D; Run 0x13A0 0x13EF 1 0xAB70;
    Run 0x13F0 0x13F5 1 0x13F8; Run 0x1C90 0x1CBA 1 0x10D0; Run 0x1CBD 0x1CBF 1 0x10FD;
    Run 0x1E00 0x1E94 2 0x1E01; Run 0x1E9E 0x1E9E 1 0xDF; Run 0x1EA0 0x1EFE 2 0x1EA1;
    Run 0x1F08 0x1F0F 1 0x1F00; Run 0x1F18 0x1F1D 1 0x1F10; Run 0x1F28 0x1F2F 1 0x1F20;
    Run 0x1F38 0x1F3F 1 0x1F30; Run 0x1F48 0x1F4D 1 0x1F40; Run 0x1F59 0x1F5F 2 0x1F51;
    Run 0x1F68 0x1F6F 1 0x1F60; Run 0x1F88 0x1F8F 1 0x1F80; Run 0x1F98 0x1F9F 1 0x1F90;
    Run 0x1FA8 0x1FAF 1 0x1FA0; Run 0x1FB8 0x1FB9 1 0x1FB0; Run 0x1FBA 0x1FBB 1 0x1F70;
    Run 0x1FBC 0x1FBC 1 0x1FB3; Run 0x1FC8 0x1FCB 1 0x1F72; Run 0x1FCC 0x1FCC 1 0x1FC3;
    Run 0x1FD8 0x1FD9 1 0x1FD0; Run 0x1FDA 0x1FDB 1 0x1F76; Run 0x1FE8 0x1FE9 1 0x1FE0;
    Run 0x1FEA 0x1FEB 1 0x1F7A; Run 0x1FEC 0x1FEC 1 0x1FE5; Run 0x1FF8 0x1FF9 1 0x1F78;
    Run 0x1FFA 0x1FFB 1 0x1F7C; Run 0x1FFC 0x1FFC 1 0x1FF3; Run 0x2126 0x2126 1 0x3C9;
    Run 0x212A 0x212A 1 0x6B; Run 0x212B 0x212B 1 0xE5; Run 0x2132 0x2132 1 0x214E;
    Run 0x2160 0x216F 1 0x2170; Run 0x2183 0x2183 1 0x2184; Run 0x24B6 0x24CF 1 0x24D0;
    Run 0x2C00 0x2C2F 1 0x2C30; Run 0x2C60 0x2C60 1 0x2C61; Run 0x2C62 0x2C62 1 0x26B;
    Run 0x2C63 0x2C63 1 0x1D7D; Run 0x2C64 0x2C64 1 0x27D; Run 0x2C67 0x2C6B 2 0x2C68;
    Run 0x2C6D 0x2C6D 1 0x251; Run 0x2C6E 0x2C6E 1 0x271; Run 0x2C6F 0x2C6F 1 0x250;
    Run 0x2C70 0x2C70 1 0x252; Run 0x2C72 0x2C72 1 0x2C73; Run 0x2C75 0x2C75 1 0x2C76;
    Run 0x2C7E 0x2C7F 1 0x23F; Run 0x2C80 0x2CE2 2 0x2C81; Run 0x2CEB 0x2CED 2 0x2CEC;
    Run 0x2CF2 0x2CF2 1 0x2CF3; Run 0xA640 0xA66C 2 0xA641; Run 0xA680 0xA69A 2 0xA681;
    Run 0xA722 0xA72E 2 0xA723; Run 0xA732 0xA76E 2 0xA733; Run 0xA779 0xA77B 2 0xA77A;
    Run 0xA77D 0xA77D 1 0x1D79; Run 0xA77E 0xA786 2 0xA77F; Run 0xA78B 0xA78B 1 0xA78C;
    Run 0xA78D 0xA78D 1 0x265; Run 0xA790 0xA792 2 0xA791; Run 0xA796 0xA7A8 2 0xA797;
    Run 0xA7AA 0xA7AA 1 0x266; Run 0xA7AB 0xA7AB 1 0x25C; Run 0xA7AC 0xA7AC 1 0x261;
    Run 0xA7AD 0xA7AD 1 0x26C; Run 0xA7AE 0xA7AE 1 0x26A; Run 0xA7B0 0xA7B0 1 0x29E;
    Run 0xA7B1 0xA7B1 1 0x287; Run 0xA7B2 0xA7B2 1 0x29D; Run 0xA7B3 0xA7B3 1 0xAB53;
    Run 0xA7B4 0xA7C2 2 0xA7B5; Run 0xA7C4 0xA7C4 1 0xA794; Run 0xA7C5 0xA7C5 1 0x282;
    Run 0xA7C6 0xA7C6 1 0x1D8E; Run 0xA7C7 0xA7C9 2 0xA7C8; Run 0xA7D0 0xA7D0 1 0xA7D1;
    Run 0xA7D6 0xA7D8 2 0xA7D7; Run 0xA7F5 0xA7F5 1 0xA7F6; Run 0xFF21 0xFF3A 1 0xFF41;
    Run 0x10400 0x10427 1 0x10428; Run 0x104B0 0x104D3 1 0x104D8; Run 0x10570 0x1057A 1 0x10597;
    Run 0x1057C 0x1058A 1 0x105A3; Run 0x1058C 0x10592 1 0x105B3; Run 0x10594 0x10595 1 0x105BB;
    Run 0x10C80 0x10CB2 1 0x10CC0; Run 0x118A0 0x118BF 1 0x118C0; Run 0x16E40 0x16E5F 1 0x16E60;
    Run 0x1E900 0x1E921 1 0x1E922 ].

Definition lower_special : list (codepoint * list codepoint) :=
  [ (0x130, [0x69; 0x307]) ].

Definition upper_runs : list case_run :=
  [ Run 0x61 0x7A 1 0x41; Run 0xB5 0xB5 1 0x39C; Run 0xE0 0xF6 1 0xC0;
    Run 0xF8 0xFE 1 0xD8; Run 0xFF 0xFF 1 0x178; Run 0x101 0x12F 2 0x100;
    Run 0x131 0x131 1 0x49; Run 0x133 0x137 2 0x132; Run 0x13A 0x148 2 0x139;
    Run 0x14B 0x177 2 0x14A; Run 0x17A 0x17E 2 0x179; Run 0x17F 0x17F 1 0x53;
    Run 0x180 0x180 1 0x243; Run 0x183 0x185 2 0x182; Run 0x188 0x188 1 0x187;
    Run 0x18C 0x18C 1 0x18B; Run 0x192 0x192 1 0x191; Run 0x195 0x195 1 0x1F6;
    Run 0x199 0x199 1 0x198; Run 0x19A 0x19A 1 0x23D; Run 0x19E 0x19E 1 0x220;
    Run 0x1A1 0x1A5 2 0x1A0; Run 0x1A8 0x1A8 1 0x1A7; Run 0x1AD 0x1AD 1 0x1AC;
    Run 0x1B0 0x1B0 1 0x1AF; Run 0x1B4 0x1B6 2 0x1B3; Run 0x1B9 0x1B9 1 0x1B8;
    Run 0x1BD 0x1BD 1 0x1BC; Run 0x1BF 0x1BF 1 0x1F7; Run 0x1C5 0x1C5 1 0x1C4;
    Run 0x1C6 0x1C6 1 0x1C4; Run 0x1C8 0x1C8 1 0x1C7; Run 0x1C9 0x1C9 1 0x1C7;
    Run 0x1CB 0x1CB 1 0x1CA; Run 0x1CC 0x1CC 1 0x1CA; Run 0x1CE 0x1DC 2 0x1CD;
    Run 0x1DD 0x1DD 1 0x18E; Run 0x1DF 0x1EF 2 0x1DE; Run 0x1F2 0x1F2 1 0x1F1;
    Run 0x1F3 0x1F3 1 0x1F1; Run 0x1F5 0x1F5 1 0x1F4; Run 0x1F9 0x21F 2 0x1F8;
    Run 0x223 0x233 2 0x222; Run 0x23C 0x23C 1 0x23B; Run 0x23F 0x240 1 0x2C7E;
    Run 0x242 0x242 1 0x241; Run 0x247 0x24F 2 0x246; Run 0x250 0x250 1 0x2C6F;
    Run 0x251 0x251 1 0x2C6D; Run 0x252 0x252 1 0x2C70; Run 0x253 0x253 1 0x181;
    Run 0x254 0x254 1 0x186; Run 0x256 0x257 1 0x189; Run 0x259 0x259 1 0x18F;
    Run 0x25B 0x25B 1 0x190; Run 0x25C 0x25C 1 0xA7AB; Run 0x260 0x260 1 0x193;
    Run 0x261 0x261 1 0xA7AC; Run 0x263 0x263 1 0x194; Run 0x265 0x265 1 0xA78D;
    Run 0x266 0x266 1 0xA7AA; Run 0x268 0x268 1 0x197; Run 0x269 0x269 1 0x196;
    Run 0x26A 0x26A 1 0xA7AE; Run 0x26B 0x26B 1 0x2C62; Run 0x26C 0x26C 1 0xA7AD;
    Run 0x26F 0x26F 1 0x19C; Run 0x271 0x271 1 0x2C6E; Run 0x272 0x272 1 0x19D;
    Run 0x275 0x275 1 0x19F; Run 0x27D 0x27D 1 0x2C64; Run 0x280 0x280 1 0x1A6;
    Run 0x282 0x282 1 0xA7C5; Run 0x283 0x283 1 0x1A9; Run 0x287 0x287 1 0xA7B1;
    Run 0x288 0x288 1 0x1AE; Run 0x289 0x289 1 0x244; Run 0x28A 0x28B 1 0x1B1;
    Run 0x28C 0x28C 1 0x245; Run 0x292 0x292 1 0x1B7; Run 0x29D 0x29D 1 0xA7B2;
    Run 0x29E 0x29E 1 0xA7B0; Run 0x345 0x345 1 0x399; Run 0x371 0x373 2 0x370;
    Run 0x377 0x377 1 0x376; Run 0x37B 0x37D 1 0x3FD; Run 0x3AC 0x3AC 1 0x386;
    Run 0x3AD 0x3AF 1 0x388; Run 0x3B1 0x3C1 1 0x391; Run 0x3C2 0x3C2 1 0x3A3;
    Run 0x3C3 0x3CB 1 0x3A3; Run 0x3CC 0x3CC 1 0x38C; Run 0x3CD 0x3CE 1 0x38E;
    Run 0x3D0 0x3D0 1 0x392; Run 0x3D1 0x3D1 1 0x398; Run 0x3D5 0x3D5 1 0x3A6;
    Run 0x3D6 0x3D6 1 0x3A0; Run 0x3D7 0x3D7 1 0x3CF; Run 0x3D9 0x3EF 2 0x3D8;
    Run 0x3F0 0x3F0 1 0x39A; Run 0x3F1 0x3F1 1 0x3A1; Run 0x3F2 0x3F2 1 0x3F9;
    Run 0x3F3 0x3F3 1 0x37F; Run 0x3F5 0x3F5 1 0x395; Run 0x3F8 0x3F8 1 0x3F7;
    Run 0x3FB 0x3FB 1 0x3FA; Run 0x430 0x44F 1 0x410; Run 0x450 0x45F 1 0x400;
    Run 0x461 0x481 2 0x460; Run 0x48B 0x4BF 2 0x48A; Run 0x4C2 0x4CE 2 0x4C1;
    Run 0x4CF 0x4CF 1 0x4C0; Run 0x4D1 0x52F 2 0x4D0; Run 0x561 0x586 1 0x531;
    Run 0x10D0 0x10FA 1 0x1C90; Run 0x10FD 0x10FF 1 0x1CBD; Run 0x13F8 0x13FD 1 0x13F0;
    Run 0x1C80 0x1C80 1 0x412; Run 0x1C81 0x1C81 1 0x414; Run 0x1C82 0x1C82 1 0x41E;
    Run 0x1C83 0x1C84 1 0x421; Run 0x1C85 0x1C85 1 0x422; Run 0x1C86 0x1C86 1 0x42A;
    Run 0x1C87 0x1C87 1 0x462; Run 0x1C88 0x1C88 1 0xA64A; Run 0x1D79 0x1D79 1 0xA77D;
    Run 0x1D7D 0x1D7D 1 0x2C63; Run 0x1D8E 0x1D8E 1 0xA7C6; Run 0x1E01 0x1E95 2 0x1E00;
    Run 0x1E9B 0x1E9B 1 0x1E60; Run 0x1EA1 0x1EFF 2 0x1EA0; Run 0x1F00 0x1F07 1 0x1F08;
    Run 0x1F10 0x1F15 1 0x1F18; Run 0x1F20 0x1F27 1 0x1F28; Run 0x1F30 0x1F37 1 0x1F38;
    Run 0x1F40 0x1F45 1 0x1F48; Run 0x1F51 0x1F57 2 0x1F59; Run 0x1F60 0x1F67 1 0x1F68;
    Run 0x1F70 0x1F71 1 0x1FBA; Run 0x1F72 0x1F75 1 0x1FC8; Run 0x1F76 0x1F77 1 0x1FDA;
    Run 0x1F78 0x1F79 1 0x1FF8; Run 0x1F7A 0x1F7B 1 0x1FEA; Run 0x1F7C 0x1F7D 1 0x1FFA;
    Run 0x1FB0 0x1FB1 1 0x1FB8; Run 0x1FBE 0x1FBE 1 0x399; Run 0x1FD0 0x1FD1 1 0x1FD8;
    Run 0x1FE0 0x1FE1 1 0x1FE8; Run 0x1FE5 0x1FE5 1 0x1FEC; Run 0x214E 0x214E 1 0x2132;
    Run 0x2170 0x217F 1 0x2160; Run 0x2184 0x2184 1 0x2183; Run 0x24D0 0x24E9 1 0x24B6;
    Run 0x2C30 0x2C5F 1 0x2C00; Run 0x2C61 0x2C61 1 0x2C60; Run 0x2C65 0x2C65 1 0x23A;
    Run 0x2C66 0x2C66 1 0x23E; Run 0x2C68 0x2C6C 2 0x2C67; Run 0x2C73 0x2C73 1 0x2C72;
    Run 0x2C76 0x2C76 1 0x2C75; Run 0x2C81 0x2CE3 2 0x2C80; Run 0x2CEC 0x2CEE 2 0x2CEB;
    Run 0x2CF3 0x2CF3 1 0x2CF2; Run 0x2D00 0x2D25 1 0x10A0; Run 0x2D27 0x2D27 1 0x10C7;
    Run 0x2D2D 0x2D2D 1 0x10CD; Run 0xA641 0xA66D 2 0xA640; Run 0xA681 0xA69B 2 0xA680;
    Run 0xA723 0xA72F 2 0xA722; Run 0xA733 0xA76F 2 0xA732; Run 0xA77A 0xA77C 2 0xA779;
    Run 0xA77F 0xA787 2 0xA77E; Run 0xA78C 0xA78C 1 0xA78B; Run 0xA791 0xA793 2 0xA790;
    Run 0xA794 0xA794 1 0xA7C4; Run 0xA797 0xA7A9 2 0xA796; Run 0xA7B5 0xA7C3 2 0xA7B4;
    Run 0xA7C8 0xA7CA 2 0xA7C7; Run 0xA7D1 0xA7D1 1 0xA7D0; Run 0xA7D7 0xA7D9 2 0xA7D6;
    Run 0xA7F6 0xA7F6 1 0xA7F5; Run 0xAB53 0xAB53 1 0xA7B3; Run 0xAB70 0xABBF 1 0x13A0;
    Run 0xFF41 0xFF5A 1 0xFF21; Run 0x10428 0x1044F 1 0x10400; Run 0x104D8 0x104FB 1 0x104B0;
    Run 0x10597 0x105A1 1 0x10570; Run 0x105A3 0x105B1 1 0x1057C; Run 0x105B3 0x105B9 1 0x1058C;
    Run 0x105BB 0x105BC 1 0x10594; Run 0x10CC0 0x10CF2 1 0x10C80; Run 0x118C0 0x118DF 1 0x118A0;
    Run 0x16E60 0x16E7F 1 0x16E40; Run 0x1E922 0x1E943 1 0x1E900 ].

Definition upper_special : list (codepoint * list codepoint) :=
  [ (0xDF, [0x53; 0x53]); (0x149, [0x2BC; 0x4E]); (0x1F0, [0x4A; 0x30C]);
    (0x390, [0x399; 0x308; 0x301]); (0x3B0, [0x3A5; 0x308; 0x301]); (0x587, [0x535; 0x552]);
    (0x1E96, [0x48; 0x331]); (0x1E97, [0x54; 0x308]); (0x1E98, [0x57; 0x30A]);
    (0x1E99, [0x59; 0x30A]); (0x1E9A, [0x41; 0x2BE]); (0x1F50, [0x3A5; 0x313]);
    (0x1F52, [0x3A5; 0x313; 0x300]); (0x1F54, [0x3A5; 0x313; 0x301]); (0x1F56, [0x3A5; 0x313; 0x342]);
    (0x1F80, [0x1F08; 0x399]); (0x1F81, [0x1F09; 0x399]); (0x1F82, [0x1F0A; 0x399]);
    (0x1F83, [0x1F0B; 0x399]); (0x1F84, [0x1F0C; 0x399]); (0x1F85, [0x1F0D; 0x399]);
    (0x1F86, [0x1F0E; 0x399]); (0x1F87, [0x1F0F; 0x399]); (0x1F88, [0x1F08; 0x399]);
    (0x1F89, [0x1F09; 0x399]); (0x1F8A, [0x1F0A; 0x399]); (0x1F8B, [0x1F0B; 0x399]);
    (0x1F8C, [0x1F0C; 0x399]); (0x1F8D, [0x1F0D; 0x399]); (0x1F8E, [0x1F0E; 0x399]);
    (0x1F8F, [0x1F0F; 0x399]); (0x1F90, [0x1F28; 0x399]); (0x1F91, [0x1F29; 0x399]);
    (0x1F92, [0x1F2A; 0x399]); (0x1F93, [0x1F2B; 0x399]); (0x1F94, [0x1F2C; 0x399]);
    (0x1F95, [0x1F2D; 0x399]); (0x1F96, [0x1F2E; 0x399]); (0x1F97, [0x1F2F; 0x399]);
    (0x1F98, [0x1F28; 0x399]); (0x1F99, [0x1F29; 0x399]); (0x1F9A, [0x1F2A; 0x399]);
    (0x1F9B, [0x1F2B; 0x399]); (0x1F9C, [0x1F2C; 0x399]); (0x1F9D, [0x1F2D; 0x399]);
    (0x1F9E, [0x1F2E; 0x399]); (0x1F9F, [0x1F2F; 0x399]); (0x1FA0, [0x1F68; 0x399]);
    (0x1FA1, [0x1F69; 0x399]); (0x1FA2, [0x1F6A; 0x399]); (0x1FA3, [0x1F6B; 0x399]);
    (0x1FA4, [0x1F6C; 0x399]); (0x1FA5, [0x1F6D; 0x399]); (0x1FA6, [0x1F6E; 0x399]);
    (0x1FA7, [0x1F6F; 0x399]); (0x1FA8, [0x1F68; 0x399]); (0x1FA9, [0x1F69; 0x399]);
    (0x1FAA, [0x1F6A; 0x399]); (0x1FAB, [0x1F6B; 0x399]); (0x1FAC, [0x1F6C; 0x399]);
    (0x1FAD, [0x1F6D; 0x399]); (0x1FAE, [0x1F6E; 0x399]); (0x1FAF, [0x1F6F; 0x399]);
    (0x1FB2, [0x1FBA; 0x399]); (0x1FB3, [0x391; 0x399]); (0x1FB4, [0x386; 0x399]);
    (0x1FB6, [0x391; 0x342]); (0x1FB7, [0x391; 0x342; 0x399]); (0x1FBC, [0x391; 0x399]);
    (0x1FC2, [0x1FCA; 0x399]); (0x1FC3, [0x397; 0x399]); (0x1FC4, [0x389; 0x399]);
    (0x1FC6, [0x397; 0x342]); (0x1FC7, [0x397; 0x342; 0x399]); (0x1FCC, [0x397; 0x399]);
    (0x1FD2, [0x399; 0x308; 0x300]); (0x1FD3, [0x399; 0x308; 0x301]); (0x1FD6, [0x399; 0x342]);
    (0x1FD7, [0x399; 0x308; 0x342]); (0x1FE2, [0x3A5; 0x308; 0x300]); (0x1FE3, [0x3A5; 0x308; 0x301]);
    (0x1FE4, [0x3A1; 0x313]); (0x1FE6, [0x3A5; 0x342]); (0x1FE7, [0x3A5; 0x308; 0x342]);
    (0x1FF2, [0x1FFA; 0x399]); (0x1FF3, [0x3A9; 0x399]); (0x1FF4, [0x38F; 0x399]);
    (0x1FF6, [0x3A9; 0x342]); (0x1FF7, [0x3A9; 0x342; 0x399]); (0x1FFC, [0x3A9; 0x399]);
    (0xFB00, [0x46; 0x46]); (0xFB01, [0x46; 0x49]); (0xFB02, [0x46; 0x4C]);
    (0xFB03, [0x46; 0x46; 0x49]); (0xFB04, [0x46; 0x46; 0x4C]); (0xFB05, [0x53; 0x54]);
    (0xFB06, [0x53; 0x54]); (0xFB13, [0x544; 0x546]); (0xFB14, [0x544; 0x535]);
    (0xFB15, [0x544; 0x53B]); (0xFB16, [0x54E; 0x546]); (0xFB17, [0x544; 0x53D]) ].

(** The [Cased] and [Case_Ignorable] properties, as ranges of code points;
    the rule for the Greek capital sigma consults them. *)

Definition cased_ranges : list (codepoint * codepoint) :=
  [ (0x41, 0x5A); (0x61, 0x7A); (0xAA, 0xAA); (0xB5, 0xB5); (0xBA, 0xBA);
    (0xC0, 0xD6); (0xD8, 0xF6); (0xF8, 0x1BA); (0x1BC, 0x1BF); (0x1C4, 0x293);
    (0x295, 0x2B8); (0x2C0, 0x2C1); (0x2E0, 0x2E4); (0x345, 0x345); (0x370, 0x373);
    (0x376, 0x377); (0x37A, 0x37D); (0x37F, 0x37F); (0x386, 0x386); (0x388, 0x38A);
    (0x38C, 0x38C); (0x38E, 0x3A1); (0x3A3, 0x3F5); (0x3F7, 0x481); (0x48A, 0x52F);
    (0x531, 0x556); (0x560, 0x588); (0x10A0, 0x10C5); (0x10C7, 0x10C7); (0x10CD, 0x10CD);
    (0x10D0, 0x10FA); (0x10FD, 0x10FF); (0x13A0, 0x13F5); (0x13F8, 0x13FD); (0x1C80, 0x1C88);
    (0x1C90, 0x1CBA); (0x1CBD, 0x1CBF); (0x1D00, 0x1DBF); (0x1E00, 0x1F15); (0x1F18, 0x1F1D);
    (0x1F20, 0x1F45); (0x1F48, 0x1F4D); (0x1F50, 0x1F57); (0x1F59, 0x1F59); (0x1F5B, 0x1F5B);
    (0x1F5D, 0x1F5D); (0x1F5F, 0x1F7D); (0x1F80, 0x1FB4); (0x1FB6, 0x1FBC); (0x1FBE, 0x1FBE);
    (0x1FC2, 0x1FC4); (0x1FC6, 0x1FCC); (0x1FD0, 0x1FD3); (0x1FD6, 0x1FDB); (0x1FE0, 0x1FEC);
    (0x1FF2, 0x1FF4); (0x1FF6, 0x1FFC); (0x2071, 0x2071); (0x207F, 0x207F); (0x2090, 0x209C);
    (0x2102, 0x2102); (0x2107, 0x2107); (0x210A, 0x2113); (0x2115, 0x2115); (0x2119, 0x211D);
    (0x2124, 0x2124); (0x2126, 0x2126); (0x2128, 0x2128); (0x212A, 0x212D); (0x212F, 0x2134);
    (0x2139, 0x2139); (0x213C, 0x213F); (0x2145, 0x2149); (0x214E, 0x214E); (0x2160, 0x217F);
    (0x2183, 0x2184); (0x24B6, 0x24E9); (0x2C00, 0x2CE4); (0x2CEB, 0x2CEE); (0x2CF2, 0x2CF3);
    (0x2D00, 0x2D25); (0x2D27, 0x2D27); (0x2D2D, 0x2D2D); (0xA640, 0xA66D); (0xA680, 0xA69D);
    (0xA722, 0xA787); (0xA78B, 0xA78E); (0xA790, 0xA7CA); (0xA7D0, 0xA7D1); (0xA7D3, 0xA7D3);
    (0xA7D5, 0xA7D9); (0xA7F5, 0xA7F6); (0xA7F8, 0xA7FA); (0xAB30, 0xAB5A); (0xAB5C, 0xAB68);
    (0xAB70, 0xABBF); (0xFB00, 0xFB06); (0xFB13, 0xFB17); (0xFF21, 0xFF3A); (0xFF41, 0xFF5A);
    (0x10400, 0x1044F); (0x104B0, 0x104D3); (0x104D8, 0x104FB); (0x10570, 0x1057A); (0x1057C, 0x1058A);
    (0x1058C, 0x10592); (0x10594, 0x10595); (0x10597, 0x105A1); (0x105A3, 0x105B1); (0x105B3, 0x105B9);
    (0x105BB, 0x105BC); (0x10780, 0x10780); (0x10783, 0x10785); (0x10787, 0x107B0); (0x107B2, 0x107BA);
    (0x10C80, 0x10CB2); (0x10CC0, 0x10CF2); (0x118A0, 0x118DF); (0x16E40, 0x16E7F); (0x1D400, 0x1D454);
    (0x1D456, 0x1D49C); (0x1D49E, 0x1D49F); (0x1D4A2, 0x1D4A2); (0x1D4A5, 0x1D4A6); (0x1D4A9, 0x1D4AC);
    (0x1D4AE, 0x1D4B9); (0x1D4BB, 0x1D4BB); (0x1D4BD, 0x1D4C3); (0x1D4C5, 0x1D505); (0x1D507, 0x1D50A);
    (0x1D50D, 0x1D514); (0x1D516, 0x1D51C); (0x1D51E, 0x1D539); (0x1D53B, 0x1D53E); (0x1D540, 0x1D544);
    (0x1D546, 0x1D546); (0x1D54A, 0x1D550); (0x1D552, 0x1D6A5); (0x1D6A8, 0x1D6C0); (0x1D6C2, 0x1D6DA);
    (0x1D6DC, 0x1D6FA); (0x1D6FC, 0x1D714); (0x1D716, 0x1D734); (0x1D736, 0x1D74E); (0x1D750, 0x1D76E);
    (0x1D770, 0x1D788); (0x1D78A, 0x1D7A8); (0x1D7AA, 0x1D7C2); (0x1D7C4, 0x1D7CB); (0x1DF00, 0x1DF09);
    (0x1DF0B, 0x1DF1E); (0x1E900, 0x1E943); (0x1F130, 0x1F149); (0x1F150, 0x1F169); (0x1F170, 0x1F189) ].

Definition case_ignorable_ranges : list (codepoint * codepoint) :=
  [ (0x27, 0x27); (0x2E, 0x2E); (0x3A, 0x3A); (0x5E, 0x5E); (0x60, 0x60);
    (0xA8, 0xA8); (0xAD, 0xAD); (0xAF, 0xAF); (0xB4, 0xB4); (0xB7, 0xB8);
    (0x2B0, 0x36F); (0x374, 0x375); (0x37A, 0x37A); (0x384, 0x385); (0x387, 0x387);
    (0x483, 0x489); (0x559, 0x559); (0x55F, 0x55F); (0x591, 0x5BD); (0x5BF, 0x5BF);
    (0x5C1, 0x5C2); (0x5C4, 0x5C5); (0x5C7, 0x5C7); (0x5F4, 0x5F4); (0x600, 0x605);
    (0x610, 0x61A); (0x61C, 0x61C); (0x640, 0x640); (0x64B, 0x65F); (0x670, 0x670);
    (0x6D6, 0x6DD); (0x6DF, 0x6E8); (0x6EA, 0x6ED); (0x70F, 0x70F); (0x711, 0x711);
    (0x730, 0x74A); (0x7A6, 0x7B0); (0x7EB, 0x7F5); (0x7FA, 0x7FA); (0x7FD, 0x7FD);
    (0x816, 0x82D); (0x859, 0x85B); (0x888, 0x888); (0x890, 0x891); (0x898, 0x89F);
    (0x8C9, 0x902); (0x93A, 0x93A); (0x93C, 0x93C); (0x941, 0x948); (0x94D, 0x94D);
    (0x951, 0x957); (0x962, 0x963); (0x971, 0x971); (0x981, 0x981); (0x9BC, 0x9BC);
    (0x9C1, 0x9C4); (0x9CD, 0x9CD); (0x9E2, 0x9E3); (0x9FE, 0x9FE); (0xA01, 0xA02);
    (0xA3C, 0xA3C); (0xA41, 0xA42); (0xA47, 0xA48); (0xA4B, 0xA4D); (0xA51, 0xA51);
    (0xA70, 0xA71); (0xA75, 0xA75); (0xA81, 0xA82); (0xABC, 0xABC); (0xAC1, 0xAC5);
    (0xAC7, 0xAC8); (0xACD, 0xACD); (0xAE2, 0xAE3); (0xAFA, 0xAFF); (0xB01, 0xB01);
    (0xB3C, 0xB3C); (0xB3F, 0xB3F); (0xB41, 0xB44); (0xB4D, 0xB4D); (0xB55, 0xB56);
    (0xB62, 0xB63); (0xB82, 0xB82); (0xBC0, 0xBC0); (0xBCD, 0xBCD); (0xC00, 0xC00);
    (0xC04, 0xC04); (0xC3C, 0xC3C); (0xC3E, 0xC40); (0xC46, 0xC48); (0xC4A, 0xC4D);
    (0xC55, 0xC56); (0xC62, 0xC63); (0xC81, 0xC81); (0xCBC, 0xCBC); (0xCBF, 0xCBF);
    (0xCC6, 0xCC6); (0xCCC, 0xCCD); (0xCE2, 0xCE3); (0xD00, 0xD01); (0xD3B, 0xD3C);
    (0xD41, 0xD44); (0xD4D, 0xD4D); (0xD62, 0xD63); (0xD81, 0xD81); (0xDCA, 0xDCA);
    (0xDD2, 0xDD4); (0xDD6, 0xDD6); (0xE31, 0xE31); (0xE34, 0xE3A); (0xE46, 0xE4E);
    (0xEB1, 0xEB1); (0xEB4, 0xEBC); (0xEC6, 0xEC6); (0xEC8, 0xECD); (0xF18, 0xF19);
    (0xF35, 0xF35); (0xF37, 0xF37); (0xF39, 0xF39); (0xF71, 0xF7E); (0xF80, 0xF84);
    (0xF86, 0xF87); (0xF8D, 0xF97); (0xF99, 0xFBC); (0xFC6, 0xFC6); (0x102D, 0x1030);
    (0x1032, 0x1037); (0x1039, 0x103A); (0x103D, 0x103E); (0x1058, 0x1059); (0x105E, 0x1060);
    (0x1071, 0x1074); (0x1082, 0x1082); (0x1085, 0x1086); (0x108D, 0x108D); (0x109D, 0x109D);
    (0x10FC, 0x10FC); (0x135D, 0x135F); (0x1712, 0x1714); (0x1732, 0x1733); (0x1752, 0x1753);
    (0x1772, 0x1773); (0x17B4, 0x17B5); (0x17B7, 0x17BD); (0x17C6, 0x17C6); (0x17C9, 0x17D3);
    (0x17D7, 0x17D7); (0x17DD, 0x17DD); (0x180B, 0x180F); (0x1843, 0x1843); (0x1885, 0x1886);
    (0x18A9, 0x18A9); (0x1920, 0x1922); (0x1927, 0x1928); (0x1932, 0x1932); (0x1939, 0x193B);
    (0x1A17, 0x1A18); (0x1A1B, 0x1A1B); (0x1A56, 0x1A56); (0x1A58, 0x1A5E); (0x1A60, 0x1A60);
    (0x1A62, 0x1A62); (0x1A65, 0x1A6C); (0x1A73, 0x1A7C); (0x1A7F, 0x1A7F); (0x1AA7, 0x1AA7);
    (0x1AB0, 0x1ACE); (0x1B00, 0x1B03); (0x1B34, 0x1B34); (0x1B36, 0x1B3A); (0x1B3C, 0x1B3C);
    (0x1B42, 0x1B42); (0x1B6B, 0x1B73); (0x1B80, 0x1B81); (0x1BA2, 0x1BA5); (0x1BA8, 0x1BA9);
    (0x1BAB, 0x1BAD); (0x1BE6, 0x1BE6); (0x1BE8, 0x1BE9); (0x1BED, 0x1BED); (0x1BEF, 0x1BF1);
    (0x1C2C, 0x1C33); (0x1C36, 0x1C37); (0x1C78, 0x1C7D); (0x1CD0, 0x1CD2); (0x1CD4, 0x1CE0);
    (0x1CE2, 0x1CE8); (0x1CED, 0x1CED); (0x1CF4, 0x1CF4); (0x1CF8, 0x1CF9); (0x1D2C, 0x1D6A);
    (0x1D78, 0x1D78); (0x1D9B, 0x1DFF); (0x1FBD, 0x1FBD); (0x1FBF, 0x1FC1); (0x1FCD, 0x1FCF);
    (0x1FDD, 0x1FDF); (0x1FED, 0x1FEF); (0x1FFD, 0x1FFE); (0x200B, 0x200F); (0x2018, 0x2019);
    (0x2024, 0x2024); (0x2027, 0x2027); (0x202A, 0x202E); (0x2060, 0x2064); (0x2066, 0x206F);
    (0x2071, 0x2071); (0x207F, 0x207F); (0x2090, 0x209C); (0x20D0, 0x20F0); (0x2C7C, 0x2C7D);
    (0x2CEF, 0x2CF1); (0x2D6F, 0x2D6F); (0x2D7F, 0x2D7F); (0x2DE0, 0x2DFF); (0x2E2F, 0x2E2F);
    (0x3005, 0x3005); (0x302A, 0x302D); (0x3031, 0x3035); (0x303B, 0x303B); (0x3099, 0x309E);
    (0x30FC, 0x30FE); (0xA015, 0xA015); (0xA4F8, 0xA4FD); (0xA60C, 0xA60C); (0xA66F, 0xA672);
    (0xA674, 0xA67D); (0xA67F, 0xA67F); (0xA69C, 0xA69F); (0xA6F0, 0xA6F1); (0xA700, 0xA721);
    (0xA770, 0xA770); (0xA788, 0xA78A); (0xA7F2, 0xA7F4); (0xA7F8, 0xA7F9); (0xA802, 0xA802);
    (0xA806, 0xA806); (0xA80B, 0xA80B); (0xA825, 0xA826); (0xA82C, 0xA82C); (0xA8C4, 0xA8C5);
    (0xA8E0, 0xA8F1); (0xA8FF, 0xA8FF); (0xA926, 0xA92D); (0xA947, 0xA951); (0xA980, 0xA982);
    (0xA9B3, 0xA9B3); (0xA9B6, 0xA9B9); (0xA9BC, 0xA9BD); (0xA9CF, 0xA9CF); (0xA9E5, 0xA9E6);
    (0xAA29, 0xAA2E); (0xAA31, 0xAA32); (0xAA35, 0xAA36); (0xAA43, 0xAA43); (0xAA4C, 0xAA4C);
    (0xAA70, 0xAA70); (0xAA7C, 0xAA7C); (0xAAB0, 0xAAB0); (0xAAB2, 0xAAB4); (0xAAB7, 0xAAB8);
    (0xAABE, 0xAABF); (0xAAC1, 0xAAC1); (0xAADD, 0xAADD); (0xAAEC, 0xAAED); (0xAAF3, 0xAAF4);
    (0xAAF6, 0xAAF6); (0xAB5B, 0xAB5F); (0xAB69, 0xAB6B); (0xABE5, 0xABE5); (0xABE8, 0xABE8);
    (0xABED, 0xABED); (0xFB1E, 0xFB1E); (0xFBB2, 0xFBC2); (0xFE00, 0xFE0F); (0xFE13, 0xFE13);
    (0xFE20, 0xFE2F); (0xFE52, 0xFE52); (0xFE55, 0xFE55); (0xFEFF, 0xFEFF); (0xFF07, 0xFF07);
    (0xFF0E, 0xFF0E); (0xFF1A, 0xFF1A); (0xFF3E, 0xFF3E); (0xFF40, 0xFF40); (0xFF70, 0xFF70);
    (0xFF9E, 0xFF9F); (0xFFE3, 0xFFE3); (0xFFF9, 0xFFFB); (0x101FD, 0x101FD); (0x102E0, 0x102E0);
    (0x10376, 0x1037A); (0x10780, 0x10785); (0x10787, 0x107B0); (0x107B2, 0x107BA); (0x10A01, 0x10A03);
    (0x10A05, 0x10A06); (0x10A0C, 0x10A0F); (0x10A38, 0x10A3A); (0x10A3F, 0x10A3F); (0x10AE5, 0x10AE6);
    (0x10D24, 0x10D27); (0x10EAB, 0x10EAC); (0x10F46, 0x10F50); (0x10F82, 0x10F85); (0x11001, 0x11001);
    (0x11038, 0x11046); (0x11070, 0x11070); (0x11073, 0x11074); (0x1107F, 0x11081); (0x110B3, 0x110B6);
    (0x110B9, 0x110BA); (0x110BD, 0x110BD); (0x110C2, 0x110C2); (0x110CD, 0x110CD); (0x11100, 0x11102);
    (0x11127, 0x1112B); (0x1112D, 0x11134); (0x11173, 0x11173); (0x11180, 0x11181); (0x111B6, 0x111BE);
    (0x111C9, 0x111CC); (0x111CF, 0x111CF); (0x1122F, 0x11231); (0x11234, 0x11234); (0x11236, 0x11237);
    (0x1123E, 0x1123E); (0x112DF, 0x112DF); (0x112E3, 0x112EA); (0x11300, 0x11301); (0x1133B, 0x1133C);
    (0x11340, 0x11340); (0x11366, 0x1136C); (0x11370, 0x11374); (0x11438, 0x1143F); (0x11442, 0x11444);
    (0x11446, 0x11446); (0x1145E, 0x1145E); (0x114B3, 0x114B8); (0x114BA, 0x114BA); (0x114BF, 0x114C0);
    (0x114C2, 0x114C3); (0x115B2, 0x115B5); (0x115BC, 0x115BD); (0x115BF, 0x115C0); (0x115DC, 0x115DD);
    (0x11633, 0x1163A); (0x1163D, 0x1163D); (0x1163F, 0x11640); (0x116AB, 0x116AB); (0x116AD, 0x116AD);
    (0x116B0, 0x116B5); (0x116B7, 0x116B7); (0x1171D, 0x1171F); (0x11722, 0x11725); (0x11727, 0x1172B);
    (0x1182F, 0x11837); (0x11839, 0x1183A); (0x1193B, 0x1193C); (0x1193E, 0x1193E); (0x11943, 0x11943);
    (0x119D4, 0x119D7); (0x119DA, 0x119DB); (0x119E0, 0x119E0); (0x11A01, 0x11A0A); (0x11A33, 0x11A38);
    (0x11A3B, 0x11A3E); (0x11A47, 0x11A47); (0x11A51, 0x11A56); (0x11A59, 0x11A5B); (0x11A8A, 0x11A96);
    (0x11A98, 0x11A99); (0x11C30, 0x11C36); (0x11C38, 0x11C3D); (0x11C3F, 0x11C3F); (0x11C92, 0x11CA7);
    (0x11CAA, 0x11CB0); (0x11CB2, 0x11CB3); (0x11CB5, 0x11CB6); (0x11D31, 0x11D36); (0x11D3A, 0x11D3A);
    (0x11D3C, 0x11D3D); (0x11D3F, 0x11D45); (0x11D47, 0x11D47); (0x11D90, 0x11D91); (0x11D95, 0x11D95);
    (0x11D97, 0x11D97); (0x11EF3, 0x11EF4); (0x13430, 0x13438); (0x16AF0, 0x16AF4); (0x16B30, 0x16B36);
    (0x16B40, 0x16B43); (0x16F4F, 0x16F4F); (0x16F8F, 0x16F9F); (0x16FE0, 0x16FE1); (0x16FE3, 0x16FE4);
    (0x1AFF0, 0x1AFF3); (0x1AFF5, 0x1AFFB); (0x1AFFD, 0x1AFFE); (0x1BC9D, 0x1BC9E); (0x1BCA0, 0x1BCA3);
    (0x1CF00, 0x1CF2D); (0x1CF30, 0x1CF46); (0x1D167, 0x1D169); (0x1D173, 0x1D182); (0x1D185, 0x1D18B);
    (0x1D1AA, 0x1D1AD); (0x1D242, 0x1D244); (0x1DA00, 0x1DA36); (0x1DA3B, 0x1DA6C); (0x1DA75, 0x1DA75);
    (0x1DA84, 0x1DA84); (0x1DA9B, 0x1DA9F); (0x1DAA1, 0x1DAAF); (0x1E000, 0x1E006); (0x1E008, 0x1E018);
    (0x1E01B, 0x1E021); (0x1E023, 0x1E024); (0x1E026, 0x1E02A); (0x1E130, 0x1E13D); (0x1E2AE, 0x1E2AE);
    (0x1E2EC, 0x1E2EF); (0x1E8D0, 0x1E8D6); (0x1E944, 0x1E94B); (0x1F3FB, 0x1F3FF); (0xE0001, 0xE0001);
    (0xE0020, 0xE007F); (0xE0100, 0xE01EF) ].

(** ** Table lookup *)

Definition run_hit (r : case_run) (c : codepoint) : bool :=
  (run_lo r <=? c) && (c <=? run_hi r) && ((c - run_lo r) mod run_stride r =? 0).

Fixpoint simple_case (t : list case_run) (c : codepoint) : option codepoint :=
  match t with
  | [] => None
  | r :: t' =>
      if run_hit r c then Some (run_image r + (c - run_lo r))
      else simple_case t' c
  end.

Fixpoint special_case (t : list (codepoint * list codepoint)) (c : codepoint)
  : option (list codepoint) :=
  match t with
  | [] => None
  | (k, l) :: t' => if c =? k then Some l else special_case t' c
  end.

Definition full_case (sp : list (codepoint * list codepoint))
    (runs : list case_run) (c : codepoint) : list codepoint :=
  match special_case sp c with
  | Some l => l
  | None =>
      match simple_case runs c with
      | Some d => [d]
      | None => [c]
      end
  end.

(** [_PyUnicode_ToLowerFull] and [_PyUnicode_ToUpperFull]. *)
Definition to_lower_full : codepoint -> list codepoint :=
  full_case lower_special lower_runs.
Definition to_upper_full : codepoint -> list codepoint :=
  full_case upper_special upper_runs.

Fixpoint in_ranges (t : list (codepoint * codepoint)) (c : codepoint) : bool :=
  match t with
  | [] => false
  | (lo, hi) :: t' => ((lo <=? c) && (c <=? hi)) || in_ranges t' c
  end.

Definition is_cased : codepoint -> bool := in_ranges cased_ranges.
Definition is_case_ignorable : codepoint -> bool :=
  in_ranges case_ignorable_ranges.

(** ** [str.lower], [str.upper], [str.startswith]

    The built-in methods, after CPython's [unicodeobject.c]: [str.lower] maps
    each character through [lower_ucs4], which treats the Greek capital sigma
    by its context and every other character by the table; [str.upper] maps
    each character through the table; [str.startswith] compares the prefix
    character by character. *)

Definition capital_sigma : codepoint := 0x3A3.
Definition small_sigma : codepoint := 0x3C3.
Definition small_final_sigma : codepoint := 0x3C2.

(** The first character of [l] that is not case-ignorable, if any. *)
Fixpoint skip_ignorable (l : str) : option codepoint :=
  match l with
  | [] => None
  | c :: l' => if is_case_ignorable c then skip_ignorable l' else Some c
  end.

(** A capital sigma at index [i] becomes a final sigma when a cased letter
    comes before it and none comes after it, case-ignorable characters
    skipped on both sides. *)
Definition handle_capital_sigma (whole : str) (i : nat) : codepoint :=
  let final_sigma :=
    match skip_ignorable (rev (firstn i whole)) with
    | Some c => is_cased c
    | None => false
    end in
  let final_sigma :=
    if final_sigma then
      match skip_ignorable (skipn (S i) whole) with
      | Some c => negb (is_cased c)
      | None => true
      end
    else false in
  if final_sigma then small_final_sigma else small_sigma.

Definition lower_ucs4 (whole : str) (i : nat) (c : codepoint) : list codepoint :=
  if c =? capital_sigma then [handle_capital_sigma whole i]
  else to_lower_full c.

(** The loop of [str.lower] over the characters from index [i] on. *)
Fixpoint do_lower (whole : str) (i : nat) (rest : str) : str :=
  match rest with
  | [] => []
  | c :: rest' => lower_ucs4 whole i c ++ do_lower whole (S i) rest'
  end.

Definition lower (s : str) : str := do_lower s 0 s.

Fixpoint upper (s : str) : str :=
  match s with
  | [] => []
  | c :: s' => to_upper_full c ++ upper s'
  end.

Fixpoint startswith (s prefix : str) {struct prefix} : bool :=
  match prefix, s with
  | [], _ => true
  | _ :: _, [] => false
  | p :: prefix', c :: s' => (c =? p) && startswith s' prefix'
  end.

(** ** The interpreter's world

    What the function can see and touch.  [platform.system()] is
    [uname().system], and [uname()] keeps its result in the module global
    [platform._uname_cache]: when the cache is empty it determines the name
    from the operating system and stores it, and from then on it answers from
    the cache.  The world therefore holds the cache (of the cached tuple only
    the [system] field, the one the script reads), the name a determination
    would give now, and everything else (the rest of the process state and
    the file system), kept abstract in [Ambient].  A call either returns a
    value or raises; both leave a world behind. *)

Inductive exn := Exception (name : string).

Inductive query :=
  | Reports (name : str)
  | Fails (e : exn).

Section Detector.

Variable Ambient : Type.

Record World := {
  uname_cache : option str;
  os_name : query;
  ambient : Ambient
}.

Inductive outcome (A : Type) :=
  | Returned (a : A) (w : World)
  | Raised (e : exn) (w : World).
Arguments Returned {A} a w.
Arguments Raised {A} e w.

Definition M (A : Type) := World -> outcome A.

Definition ret {A} (a : A) : M A := fun w => Returned a w.

Definition bind {A B} (m : M A) (k : A -> M B) : M B :=
  fun w =>
    match m w with
    | Returned a w' => k a w'
    | Raised e w' => Raised e w'
    end.

Notation "x <- m ;; k" := (bind m (fun x => k))
  (at level 61, m at next level, right associativity).

(** The world with [name] in the cache. *)
Definition remember (name : str) (w : World) : World :=
  {| uname_cache := Some name; os_name := os_name w; ambient := ambient w |}.

(** [platform.system()]: the cached name if there is one; otherwise the name
    the operating system reports, stored in the cache on the way out.  A
    failing determination raises before anything is stored. *)
Definition platform_system : M str :=
  fun w =>
    match uname_cache w with
    | Some name => Returned name w
    | None =>
        match os_name w with
        | Reports name => Returned name (remember name w)
        | Fails e => Raised e w
        end
    end.

(** The function of the script. *)
Definition is_windows : M bool :=
  s <- (name <- platform_system ;; ret (lower name)) ;;
  ret (startswith s (lit "win")).

(** What [platform.system()] answers in a world. *)
Definition platform_answer (w : World) : query :=
  match uname_cache w with
  | Some name => Reports name
  | None => os_name w
  end.

(** The worlds in which [platform.system()] answers [s]: nothing is cached
    yet and the operating system reports [s], or [s] is cached already,
    whatever the operating system would report now. *)
Inductive memo :=
  | NotYet
  | Already (os : query).

Definition on (s : str) (m : memo) (a : Ambient) : World :=
  match m with
  | NotYet => {| uname_cache := None; os_name := Reports s; ambient := a |}
  | Already q => {| uname_cache := Some s; os_name := q; ambient := a |}
  end.

(** Changes of the environment between two calls (not actions of the
    script): the operating system now reports [q]; the cache of the
    [platform] module is cleared. *)
Definition environment_becomes (q : query) : M unit :=
  fun w =>
    Returned tt
      {| uname_cache := uname_cache w; os_name := q; ambient := ambient w |}.

Definition cache_cleared : M unit :=
  fun w =>
    Returned tt
      {| uname_cache := None; os_name := os_name w; ambient := ambient w |}.

Definition world_after {A} (o : outcome A) : World :=
  match o with
  | Returned _ w => w
  | Raised _ w => w
  end.

End Detector.

Arguments Returned {Ambient A} a w.
Arguments Raised {Ambient A} e w.
Arguments ret {Ambient A} a w.
Arguments bind {Ambient A B} m k w.
Arguments remember {Ambient} name w.
Arguments platform_system {Ambient} w.
Arguments is_windows {Ambient} w.
Arguments platform_answer {Ambient} w.
Arguments on {Ambient} s m a.
Arguments environment_becomes {Ambient} q w.
Arguments cache_cleared {Ambient} w.
Arguments world_after {Ambient A} o.
Arguments uname_cache {Ambient} w.
Arguments os_name {Ambient} w.
Arguments ambient {Ambient} w.

Notation "x <- m ;; k" := (bind m (fun x => k))
  (at level 61, m at next level, right associativity).

(** Two calls in a row; two calls with a change of the reported name in
    between; the same with the cache cleared as well. *)
Definition twice {Ambient} : M Ambient (bool * bool) :=
  b1 <- is_windows ;; b2 <- is_windows ;; ret (b1, b2).

Definition twice_across {Ambient} (q : query) : M Ambient (bool * bool) :=
  b1 <- is_windows ;; _ <- environment_becomes q ;; b2 <- is_windows ;;
  ret (b1, b2).

Definition twice_across_cleared {Ambient} (q : query)
  : M Ambient (bool * bool) :=
  b1 <- is_windows ;; _ <- environment_becomes q ;; _ <- cache_cleared ;;
  b2 <- is_windows ;; ret (b1, b2).

(** ** Letters of the prefix

    The six code points that spell "win" in either case, and the test for a
    string that starts with "win" whatever the case of its letters. *)

Definition is_w (c : codepoint) : bool := (c =? 0x57) || (c =? 0x77).
Definition is_i (c : codepoint) : bool := (c =? 0x49) || (c =? 0x69).
Definition is_n (c : codepoint) : bool := (c =? 0x4E) || (c =? 0x6E).
Definition win_letter (c : codepoint) : bool := is_w c || is_i c || is_n c.

Definition capital_i_with_dot : codepoint := 0x130.
Definition dotless_i : codepoint := 0x131.
Definition w_with_ring : codepoint := 0x1E98.

Definition ci_n (s : str) : bool :=
  match s with
  | c :: _ => is_n c
  | [] => false
  end.

Definition ci_in (s : str) : bool :=
  match s with
  | c :: s' => is_i c && ci_n s'
  | [] => false
  end.

Definition ci_win (s : str) : bool :=
  match s with
  | c :: s' => is_w c && ci_in s'
  | [] => false
  end.

(** The same test, with the dotless i accepted as second letter. *)
Definition ci_in_dotless (s : str) : bool :=
  match s with
  | c :: s' => (is_i c || (c =? dotless_i)) && ci_n s'
  | [] => false
  end.

Definition ci_win_dotless (s : str) : bool :=
  match s with
  | c :: s' => is_w c && ci_in_dotless s'
  | [] => false
  end.

(** A name on which uppercasing turns the dotless i into the "I" of "WIN". *)
Definition dotless_start (s : str) : bool :=
  match s with
  | c0 :: c1 :: c2 :: _ => is_w c0 && ((c1 =? dotless_i) && is_n c2)
  | _ => false
  end.

(** Changing the case of single characters: each character of a string is
    kept, replaced by its lowercase form or replaced by its uppercase form,
    as [how] says for its index. *)
Inductive case_change := Keep | Lower | Upper.

Definition is_Upper (ch : case_change) : bool :=
  match ch with
  | Upper => true
  | _ => false
  end.

Definition recase_char (ch : case_change) (c : codepoint) : list codepoint :=
  match ch with
  | Keep => [c]
  | Lower => to_lower_full c
  | Upper => to_upper_full c
  end.

Fixpoint recase_from (how : nat -> case_change) (i : nat) (s : str) : str :=
  match s with
  | [] => []
  | c :: s' => recase_char (how i) c ++ recase_from how (S i) s'
  end.

Definition recase (how : nat -> case_change) (s : str) : str :=
  recase_from how 0 s.

(** The code points that a run can send to [d]. *)
Definition run_preimage (r : case_run) (d : codepoint) : option codepoint :=
  if (run_image r <=? d) && (d <=? run_image r + (run_hi r - run_lo r))
  then Some (run_lo r + (d - run_image r))
  else None.

Fixpoint preimages (t : list case_run) (d : codepoint) : list codepoint :=
  match t with
  | [] => []
  | r :: t' =>
      match run_preimage r d with
      | Some c => c :: preimages t' d
      | None => preimages t' d
      end
  end.

(** What a multi-character mapping of [str.upper] may start with: no letter
    of "win", except for the w with a ring above. *)
Definition special_upper_ok (e : codepoint * list codepoint) : bool :=
  match snd e with
  | x :: _ => negb (win_letter x) || (fst e =? w_with_ring)
  | [] => false
  end.

(** How one character is lowercased, as far as the letters of "win" go. *)
Inductive lower_shape (c : codepoint) : list codepoint -> Prop :=
  | LsW : is_w c = true -> lower_shape c [0x77]
  | LsI : is_i c = true -> lower_shape c [0x69]
  | LsN : is_n c = true -> lower_shape c [0x6E]
  | LsDot : c = capital_i_with_dot -> lower_shape c [0x69; 0x307]
  | LsOther x xs :
      win_letter c = false -> win_letter x = false -> lower_shape c (x :: xs).

(** The same for [str.upper]. *)
Inductive upper_shape (c : codepoint) : list codepoint -> Prop :=
  | UsW : is_w c = true -> upper_shape c [0x57]
  | UsI : is_i c = true -> upper_shape c [0x49]
  | UsN : is_n c = true -> upper_shape c [0x4E]
  | UsDotless : c = dotless_i -> upper_shape c [0x49]
  | UsRing : c = w_with_ring -> upper_shape c [0x57; 0x30A]
  | UsOther x xs :
      win_letter c = false -> c <> dotless_i -> win_letter x = false ->
      upper_shape c (x :: xs).

(** * Proofs *)

(** ** Letters *)

Lemma is_w_true c : is_w c = true -> c = 0x57 \/ c = 0x77.
Proof.
  unfold is_w. rewrite orb_true_iff, !N.eqb_eq. tauto.
Qed.

Lemma is_i_true c : is_i c = true -> c = 0x49 \/ c = 0x69.
Proof.
  unfold is_i. rewrite orb_true_iff, !N.eqb_eq. tauto.
Qed.

Lemma is_n_true c : is_n c = true -> c = 0x4E \/ c = 0x6E.
Proof.
  unfold is_n. rewrite orb_true_iff, !N.eqb_eq. tauto.
Qed.

Lemma win_letter_true c :
  win_letter c = true ->
  c = 0x57 \/ c = 0x77 \/ c = 0x49 \/ c = 0x69 \/ c = 0x4E \/ c = 0x6E.
Proof.
  unfold win_letter. rewrite !orb_true_iff.
  intros [[H | H] | H];
    [apply is_w_true in H | apply is_i_true in H | apply is_n_true in H];
    tauto.
Qed.

Lemma win_letter_false c :
  win_letter c = false ->
  is_w c = false /\ is_i c = false /\ is_n c = false.
Proof.
  unfold win_letter. intros H.
  apply orb_false_elim in H as [H Hn].
  apply orb_false_elim in H as [Hw Hi]. auto.
Qed.

Lemma is_w_false c : is_w c = false -> (c =? 0x77) = false.
Proof. unfold is_w. intros H. apply orb_false_elim in H. tauto. Qed.

Lemma is_i_false c : is_i c = false -> (c =? 0x69) = false.
Proof. unfold is_i. intros H. apply orb_false_elim in H. tauto. Qed.

Lemma is_n_false c : is_n c = false -> (c =? 0x6E) = false.
Proof. unfold is_n. intros H. apply orb_false_elim in H. tauto. Qed.

(** ** Tables *)

Lemma simple_case_preimage t c d :
  simple_case t c = Some d -> In c (preimages t d).
Proof.
  induction t as [| r t IH]; simpl; [discriminate |].
  unfold run_hit, run_preimage.
  destruct (run_lo r <=? c) eqn:Hlo; simpl.
  - destruct (c <=? run_hi r) eqn:Hhi; simpl.
    + destruct ((c - run_lo r) mod run_stride r =? 0); simpl.
      * intros [= <-].
        apply N.leb_le in Hlo, Hhi.
        replace (run_image r <=? run_image r + (c - run_lo r)) with true
          by (symmetry; apply N.leb_le; lia).
        replace (run_image r + (c - run_lo r) <=?
                 run_image r + (run_hi r - run_lo r)) with true
          by (symmetry; apply N.leb_le; lia).
        simpl. left. lia.
      * intros H. destruct (_ && _); [right |]; auto.
    + intros H. destruct (_ && _); [right |]; auto.
  - intros H. destruct (_ && _); [right |]; auto.
Qed.

Lemma special_case_In t c l : special_case t c = Some l -> In (c, l) t.
Proof.
  induction t as [| [k l'] t IH]; simpl; [discriminate |].
  destruct (N.eqb_spec c k) as [-> | _].
  - intros [= ->]. now left.
  - intros H. right. auto.
Qed.

Lemma special_lower c :
  special_case lower_special c =
  if c =? capital_i_with_dot then Some [0x69; 0x307] else None.
Proof. reflexivity. Qed.

Lemma special_upper_checked : forallb special_upper_ok upper_special = true.
Proof. vm_compute. reflexivity. Qed.

Lemma full_case_lower c :
  to_lower_full c =
  if c =? capital_i_with_dot then [0x69; 0x307]
  else match simple_case lower_runs c with
       | Some d => [d]
       | None => [c]
       end.
Proof.
  unfold to_lower_full, full_case. rewrite special_lower.
  now destruct (c =? capital_i_with_dot).
Qed.

(** Only [W], [I] and [N] are sent to a letter of "win" by the simple
    lowercase mapping, and only [w], [i], the dotless i and [n] by the simple
    uppercase mapping. *)
Lemma lower_runs_onto_letter c d :
  simple_case lower_runs c = Some d -> win_letter d = true ->
  win_letter c = true.
Proof.
  intros H Hd. apply simple_case_preimage in H.
  apply win_letter_true in Hd.
  destruct Hd as [-> | [-> | [-> | [-> | [-> | ->]]]]];
    vm_compute in H; intuition (subst; reflexivity).
Qed.

Lemma upper_runs_onto_letter c d :
  simple_case upper_runs c = Some d -> win_letter d = true ->
  win_letter c = true \/ c = dotless_i.
Proof.
  intros H Hd. apply simple_case_preimage in H.
  apply win_letter_true in Hd.
  destruct Hd as [-> | [-> | [-> | [-> | [-> | ->]]]]];
    vm_compute in H; intuition (subst; auto).
Qed.

Lemma to_lower_full_shape c : lower_shape c (to_lower_full c).
Proof.
  destruct (win_letter c) eqn:Hc.
  - apply win_letter_true in Hc.
    destruct Hc as [-> | [-> | [-> | [-> | [-> | ->]]]]];
      first [ now apply LsW | now apply LsI | now apply LsN ].
  - rewrite full_case_lower.
    destruct (N.eqb_spec c capital_i_with_dot) as [-> | Hdot].
    + now apply LsDot.
    + destruct (simple_case lower_runs c) as [d |] eqn:Hd.
      * apply LsOther; [exact Hc |].
        destruct (win_letter d) eqn:Hwd; [| reflexivity].
        rewrite (lower_runs_onto_letter c d Hd Hwd) in Hc. discriminate.
      * now apply LsOther.
Qed.

Lemma lower_ucs4_shape whole i c : lower_shape c (lower_ucs4 whole i c).
Proof.
  unfold lower_ucs4.
  destruct (N.eqb_spec c capital_sigma) as [-> | _].
  - apply LsOther; [reflexivity |].
    unfold handle_capital_sigma.
    repeat match goal with
           | |- context [if ?b then _ else _] => destruct b
           | |- context [match ?o with Some _ => _ | None => _ end] =>
               destruct o
           end; reflexivity.
  - apply to_lower_full_shape.
Qed.

Lemma to_upper_full_shape c : upper_shape c (to_upper_full c).
Proof.
  destruct (win_letter c) eqn:Hc.
  - apply win_letter_true in Hc.
    destruct Hc as [-> | [-> | [-> | [-> | [-> | ->]]]]];
      first [ now apply UsW | now apply UsI | now apply UsN ].
  - destruct (N.eqb_spec c dotless_i) as [-> | Hdotless];
      [now apply UsDotless |].
    destruct (N.eqb_spec c w_with_ring) as [-> | Hring];
      [now apply UsRing |].
    unfold to_upper_full, full_case.
    destruct (special_case upper_special c) as [l |] eqn:Hsp.
    + apply special_case_In in Hsp.
      pose proof special_upper_checked as Hall.
      rewrite forallb_forall in Hall. apply Hall in Hsp.
      unfold special_upper_ok in Hsp. simpl in Hsp.
      destruct l as [| x xs]; [discriminate |].
      apply orb_true_iff in Hsp as [Hx | Hx].
      * apply UsOther; auto. now apply negb_true_iff.
      * apply N.eqb_eq in Hx. contradiction.
    + destruct (simple_case upper_runs c) as [d |] eqn:Hd.
      * apply UsOther; auto.
        destruct (win_letter d) eqn:Hwd; [| reflexivity].
        destruct (upper_runs_onto_letter c d Hd Hwd) as [H | H];
          [rewrite H in Hc; discriminate | contradiction].
      * now apply UsOther.
Qed.

(** ** Matching "win" against a lowercased or uppercased string

    One character of the input accounts for one letter of the prefix. *)

Ltac letters :=
  repeat match goal with
         | H : is_w _ = true |- _ => apply is_w_true in H; destruct H as [-> | ->]
         | H : is_i _ = true |- _ => apply is_i_true in H; destruct H as [-> | ->]
         | H : is_n _ = true |- _ => apply is_n_true in H; destruct H as [-> | ->]
         | H : win_letter _ = false |- _ =>
             apply win_letter_false in H; destruct H as (? & ? & ?)
         end.

Ltac close_shape :=
  letters; subst; cbn [app startswith ci_win ci_in ci_n];
  repeat match goal with
         | H : is_w ?x = false |- _ =>
             rewrite ?H, ?(is_w_false x H); clear H
         | H : is_i ?x = false |- _ =>
             rewrite ?H, ?(is_i_false x H); clear H
         | H : is_n ?x = false |- _ =>
             rewrite ?H, ?(is_n_false x H); clear H
         end;
  reflexivity.

Ltac by_shape H := destruct H; close_shape.

Section Steps.

Variables (c : codepoint) (o tail : str).

Lemma lower_step_w p :
  lower_shape c o ->
  startswith (o ++ tail) (0x77 :: p) = is_w c && startswith tail p.
Proof. intros H. by_shape H. Qed.

Lemma lower_step_i p :
  lower_shape c o ->
  startswith (o ++ tail) (0x69 :: 0x6E :: p) =
  is_i c && startswith tail (0x6E :: p).
Proof. intros H. by_shape H. Qed.

Lemma lower_step_n p :
  lower_shape c o ->
  startswith (o ++ tail) (0x6E :: p) = is_n c && startswith tail p.
Proof. intros H. by_shape H. Qed.

Lemma lower_ci_w : lower_shape c o -> ci_win (o ++ tail) = is_w c && ci_in tail.
Proof. intros H. by_shape H. Qed.

Lemma lower_ci_i : lower_shape c o -> ci_in (o ++ tail) = is_i c && ci_n tail.
Proof. intros H. by_shape H. Qed.

Lemma lower_ci_n : lower_shape c o -> ci_n (o ++ tail) = is_n c.
Proof. intros H. by_shape H. Qed.

Lemma upper_ci_w : upper_shape c o -> ci_win (o ++ tail) = is_w c && ci_in tail.
Proof. intros H. by_shape H. Qed.

Lemma upper_ci_i :
  upper_shape c o ->
  ci_in (o ++ tail) = (is_i c || (c =? dotless_i)) && ci_n tail.
Proof.
  intros H.
  destruct H as [| | | | | x xs Hc Hd Hx]; [close_shape .. |].
  apply N.eqb_neq in Hd. rewrite Hd, orb_false_r. close_shape.
Qed.

Lemma upper_ci_n : upper_shape c o -> ci_n (o ++ tail) = is_n c.
Proof. intros H. by_shape H. Qed.

End Steps.

Lemma startswith_prefix s p :
  startswith s p = true <-> exists rest, s = p ++ rest.
Proof.
  revert s. induction p as [| x p IH]; intros s; simpl.
  - split; [exists s |]; reflexivity.
  - destruct s as [| c s].
    + split; [discriminate | intros [rest H]; discriminate].
    + rewrite andb_true_iff, N.eqb_eq, IH. split.
      * intros [-> [rest ->]]. now exists rest.
      * intros [rest [= -> ->]]. split; [| exists rest]; reflexivity.
Qed.

Lemma do_lower_starts_win whole i s :
  startswith (do_lower whole i s) (lit "win") = ci_win s.
Proof.
  change (lit "win") with [0x77; 0x69; 0x6E].
  destruct s as [| c0 [| c1 [| c2 s]]]; cbn [do_lower ci_win ci_in ci_n].
  - reflexivity.
  - rewrite (lower_step_w c0 _ _ _ (lower_ucs4_shape whole i c0)).
    cbn [startswith]. now rewrite andb_false_r.
  - rewrite (lower_step_w c0 _ _ _ (lower_ucs4_shape whole i c0)).
    rewrite (lower_step_i c1 _ _ _ (lower_ucs4_shape whole (S i) c1)).
    cbn [startswith]. now rewrite !andb_false_r.
  - rewrite (lower_step_w c0 _ _ _ (lower_ucs4_shape whole i c0)).
    rewrite (lower_step_i c1 _ _ _ (lower_ucs4_shape whole (S i) c1)).
    rewrite (lower_step_n c2 _ _ _ (lower_ucs4_shape whole (S (S i)) c2)).
    cbn [startswith]. now rewrite andb_true_r.
Qed.

Lemma do_lower_ci_win whole i s : ci_win (do_lower whole i s) = ci_win s.
Proof.
  destruct s as [| c0 [| c1 [| c2 s]]]; cbn [do_lower ci_win ci_in ci_n].
  - reflexivity.
  - rewrite (lower_ci_w c0 _ _ (lower_ucs4_shape whole i c0)).
    reflexivity.
  - rewrite (lower_ci_w c0 _ _ (lower_ucs4_shape whole i c0)).
    rewrite (lower_ci_i c1 _ _ (lower_ucs4_shape whole (S i) c1)).
    reflexivity.
  - rewrite (lower_ci_w c0 _ _ (lower_ucs4_shape whole i c0)).
    rewrite (lower_ci_i c1 _ _ (lower_ucs4_shape whole (S i) c1)).
    now rewrite (lower_ci_n c2 _ _ (lower_ucs4_shape whole (S (S i)) c2)).
Qed.

Lemma upper_ci_win s : ci_win (upper s) = ci_win_dotless s.
Proof.
  destruct s as [| c0 [| c1 [| c2 s]]];
    cbn [upper ci_win_dotless ci_in_dotless ci_n].
  - reflexivity.
  - rewrite (upper_ci_w c0 _ _ (to_upper_full_shape c0)).
    reflexivity.
  - rewrite (upper_ci_w c0 _ _ (to_upper_full_shape c0)).
    rewrite (upper_ci_i c1 _ _ (to_upper_full_shape c1)).
    reflexivity.
  - rewrite (upper_ci_w c0 _ _ (to_upper_full_shape c0)).
    rewrite (upper_ci_i c1 _ _ (to_upper_full_shape c1)).
    now rewrite (upper_ci_n c2 _ _ (to_upper_full_shape c2)).
Qed.

(** The prefix test on the lowercased name looks at the first three
    characters of the name only, and at their letters, not their case. *)
Lemma lower_starts_win s : startswith (lower s) (lit "win") = ci_win s.
Proof. apply do_lower_starts_win. Qed.

Lemma lower_lower_starts_win s :
  startswith (lower (lower s)) (lit "win") = startswith (lower s) (lit "win").
Proof.
  rewrite !lower_starts_win. apply do_lower_ci_win.
Qed.

Lemma lower_upper_starts_win s :
  startswith (lower (upper s)) (lit "win") = ci_win_dotless s.
Proof.
  rewrite lower_starts_win. apply upper_ci_win.
Qed.

Lemma ci_win_dotless_agrees s :
  nth_error s 1 <> Some dotless_i -> ci_win_dotless s = ci_win s.
Proof.
  destruct s as [| c0 [| c1 s]]; try reflexivity.
  cbn [nth_error ci_win_dotless ci_in_dotless ci_win ci_in]. intros H.
  destruct (N.eqb_spec c1 dotless_i) as [-> | _]; [congruence |].
  now rewrite orb_false_r.
Qed.

Lemma ci_win_short (s : str) : (List.length s < 3)%nat -> ci_win s = false.
Proof.
  destruct s as [| c0 [| c1 [| c2 s]]]; cbn [List.length ci_win ci_in ci_n];
    intros H; rewrite ?andb_false_r; try reflexivity; lia.
Qed.

Lemma ci_win_app s t : ci_win s = true -> ci_win (s ++ t) = true.
Proof.
  destruct s as [| c0 [| c1 [| c2 s]]]; cbn [app ci_win ci_in ci_n];
    rewrite ?andb_false_r; auto; discriminate.
Qed.

Lemma ci_win_firstn s : ci_win (firstn 3 s) = ci_win s.
Proof. now destruct s as [| c0 [| c1 [| c2 s]]]. Qed.


Lemma ci_win_true_iff (s : str) :
  ci_win s = true <->
  exists c0 c1 c2 rest,
    s = c0 :: c1 :: c2 :: rest /\
    (c0 = 0x57 \/ c0 = 0x77) /\ (c1 = 0x49 \/ c1 = 0x69) /\
    (c2 = 0x4E \/ c2 = 0x6E).
Proof.
  split.
  - destruct s as [| c0 [| c1 [| c2 rest]]]; cbn [ci_win ci_in ci_n];
      rewrite ?andb_false_r; try discriminate.
    rewrite !andb_true_iff. intros (Hw & Hi & Hn).
    exists c0, c1, c2, rest.
    auto using is_w_true, is_i_true, is_n_true.
  - intros (c0 & c1 & c2 & rest & -> & Hw & Hi & Hn).
    destruct Hw as [-> | ->], Hi as [-> | ->], Hn as [-> | ->]; reflexivity.
Qed.

Lemma ci_win_dotless_differs (s : str) :
  ci_win s <> ci_win_dotless s <->
  exists c0 c2 rest,
    s = c0 :: dotless_i :: c2 :: rest /\
    (c0 = 0x57 \/ c0 = 0x77) /\ (c2 = 0x4E \/ c2 = 0x6E).
Proof.
  split.
  - destruct s as [| c0 [| c1 [| c2 rest]]];
      cbn [ci_win ci_in ci_n ci_win_dotless ci_in_dotless];
      rewrite ?andb_false_r; try congruence.
    destruct (N.eqb_spec c1 dotless_i) as [-> | _].
    + intros H. exists c0, c2, rest. split; [reflexivity |].
      destruct (is_w c0) eqn:Hw, (is_n c2) eqn:Hn;
        try (exfalso; apply H; reflexivity).
      auto using is_w_true, is_n_true.
    + rewrite orb_false_r. congruence.
  - intros (c0 & c2 & rest & -> & Hw & Hn).
    destruct Hw as [-> | ->], Hn as [-> | ->]; discriminate.
Qed.


(** ** Changing the case of single characters *)

Lemma recase_char_ci_w ch c tail :
  ci_win (recase_char ch c ++ tail) = is_w c && ci_in tail.
Proof.
  destruct ch; cbn [recase_char].
  - reflexivity.
  - apply lower_ci_w, to_lower_full_shape.
  - apply upper_ci_w, to_upper_full_shape.
Qed.

Lemma recase_char_ci_i ch c tail :
  ci_in (recase_char ch c ++ tail) =
  (is_i c || (is_Upper ch && (c =? dotless_i))) && ci_n tail.
Proof.
  destruct ch; cbn [recase_char is_Upper andb]; rewrite ?orb_false_r.
  - reflexivity.
  - apply lower_ci_i, to_lower_full_shape.
  - apply upper_ci_i, to_upper_full_shape.
Qed.

Lemma recase_char_ci_n ch c tail :
  ci_n (recase_char ch c ++ tail) = is_n c.
Proof.
  destruct ch; cbn [recase_char].
  - reflexivity.
  - apply lower_ci_n, to_lower_full_shape.
  - apply upper_ci_n, to_upper_full_shape.
Qed.

Lemma recase_ci_win how s :
  ci_win (recase how s) =
  ci_win s || (dotless_start s && is_Upper (how 1%nat)).
Proof.
  unfold recase.
  destruct s as [| c0 [| c1 [| c2 s]]];
    cbn [recase_from ci_win ci_in ci_n dotless_start].
  - reflexivity.
  - rewrite recase_char_ci_w. cbn [ci_in].
    now rewrite !andb_false_r.
  - rewrite recase_char_ci_w, recase_char_ci_i. cbn [ci_n].
    now rewrite !andb_false_r.
  - rewrite recase_char_ci_w, recase_char_ci_i, recase_char_ci_n.
    destruct (is_w c0), (is_i c1), (is_n c2), (is_Upper (how 1%nat)),
      (c1 =? dotless_i); reflexivity.
Qed.

Lemma ci_win_dotless_split s :
  ci_win_dotless s = ci_win s || dotless_start s.
Proof.
  destruct s as [| c0 [| c1 [| c2 s]]];
    cbn [ci_win_dotless ci_in_dotless ci_win ci_in ci_n dotless_start];
    rewrite ?andb_false_r; try reflexivity.
  destruct (is_w c0), (is_i c1), (is_n c2), (c1 =? dotless_i); reflexivity.
Qed.

Lemma dotless_start_not_win s : ci_win s && dotless_start s = false.
Proof.
  destruct s as [| c0 [| c1 [| c2 s]]];
    cbn [ci_win ci_in ci_n dotless_start]; rewrite ?andb_false_r;
    try reflexivity.
  destruct (N.eqb_spec c1 dotless_i) as [-> | _].
  - now destruct (is_w c0), (is_n c2).
  - now destruct (is_w c0), (is_i c1), (is_n c2).
Qed.

Lemma lower_win_ci p : lower p = lit "win" -> ci_win p = true.
Proof.
  intros H. rewrite <- lower_starts_win, H. reflexivity.
Qed.

(** ** The call *)

Lemma is_windows_on (Ambient : Type) (s : str) (m : memo) (a : Ambient) :
  is_windows (on s m a) =
  Returned (startswith (lower s) (lit "win")) (remember s (on s m a)).
Proof. destruct m; reflexivity. Qed.

Lemma is_windows_ci (Ambient : Type) (s : str) (m : memo) (a : Ambient) :
  is_windows (on s m a) = Returned (ci_win s) (remember s (on s m a)).
Proof. rewrite is_windows_on. now rewrite lower_starts_win. Qed.

Lemma is_windows_world (Ambient : Type) (w : World Ambient) :
  is_windows w =
  match platform_answer w with
  | Reports s => Returned (startswith (lower s) (lit "win")) (remember s w)
  | Fails e => Raised e w
  end.
Proof.
  destruct w as [[c |] [s | e] a]; reflexivity.
Qed.

(** * Properties of [is_windows] *)

(** C1: whatever name [s] the platform answers, from the operating system
    or from its cache, [is_windows] returns the boolean [true] exactly when
    the lowercased [s] starts with "win"; the returned value is the prefix
    test on the lowercased name. *)
Theorem is_windows_iff_lowercase_prefix
    (Ambient : Type) (s : str) (m : memo) (a : Ambient) :
  exists b : bool,
    is_windows (on s m a) = Returned b (remember s (on s m a)) /\
    b = startswith (lower s) (lit "win") /\
    (b = true <-> exists rest, lower s = lit "win" ++ rest).
Proof.
  exists (startswith (lower s) (lit "win")).
  split; [apply is_windows_on |]. split; [reflexivity |].
  apply startswith_prefix.
Qed.

(** C2: on the names "WINDOWS", "Windows", "windows" and "win32" the
    function returns [true]. *)
Theorem is_windows_true_examples (Ambient : Type) (m : memo) (a : Ambient) :
  is_windows (on (lit "WINDOWS") m a) =
    Returned true (remember (lit "WINDOWS") (on (lit "WINDOWS") m a)) /\
  is_windows (on (lit "Windows") m a) =
    Returned true (remember (lit "Windows") (on (lit "Windows") m a)) /\
  is_windows (on (lit "windows") m a) =
    Returned true (remember (lit "windows") (on (lit "windows") m a)) /\
  is_windows (on (lit "win32") m a) =
    Returned true (remember (lit "win32") (on (lit "win32") m a)).
Proof.
  repeat split; rewrite is_windows_ci; reflexivity.
Qed.

(** C3: on the names "Linux" and "Darwin" and on the empty name the function
    returns [false]. *)
Theorem is_windows_false_examples (Ambient : Type) (m : memo) (a : Ambient) :
  is_windows (on (lit "Linux") m a) =
    Returned false (remember (lit "Linux") (on (lit "Linux") m a)) /\
  is_windows (on (lit "Darwin") m a) =
    Returned false (remember (lit "Darwin") (on (lit "Darwin") m a)) /\
  is_windows (on [] m a) = Returned false (remember [] (on [] m a)).
Proof.
  repeat split; rewrite is_windows_ci; reflexivity.
Qed.

(** C4: the result is a function of the platform name alone: there is a
    function [f] of the name such that a call returns [f s] whatever the rest
    of the world is, and two calls in a row both return [f s]. *)
Theorem is_windows_deterministic :
  exists f : str -> bool,
    forall (Ambient : Type) (s : str) (m : memo) (a : Ambient),
      is_windows (on s m a) = Returned (f s) (remember s (on s m a)) /\
      twice (on s m a) = Returned (f s, f s) (remember s (on s m a)).
Proof.
  exists (fun s => startswith (lower s) (lit "win")).
  intros Ambient s m a. split; destruct m; reflexivity.
Qed.




(** C6: when the platform answers with a name, whatever it is, the call
    returns a boolean; the call raises only when the platform query itself
    raises, and then it raises that very exception. *)
Theorem is_windows_total (Ambient : Type) (w : World Ambient) :
  match platform_answer w with
  | Reports s => exists b : bool, is_windows w = Returned b (remember s w)
  | Fails e => is_windows w = Raised e w
  end.
Proof.
  rewrite is_windows_world.
  destruct (platform_answer w) as [s | e]; [eexists |]; reflexivity.
Qed.

(** C7, as stated, fails: when the operating system reports "Windows" at the
    first call and "Linux" at the second, the second call still returns
    [true], the answer for the cached name; a first call under "Linux"
    returns [false]. *)
Lemma is_windows_second_call_stale :
  twice_across (Reports (lit "Linux")) (on (lit "Windows") NotYet tt) =
    Returned (true, true) (on (lit "Windows") (Already (Reports (lit "Linux"))) tt) /\
  is_windows (on (lit "Linux") NotYet tt) =
    Returned false (on (lit "Linux") (Already (Reports (lit "Linux"))) tt).
Proof.
  split; reflexivity.
Qed.

(** C7, amended: the function keeps no state of its own and asks
    [platform.system()] at each call; the memo is the cache of the
    [platform] module.  With the cache left alone, a second call returns what
    the first returned, whatever the operating system reports by then; with
    the cache cleared in between, the second call answers for the name
    reported at its own time. *)
Theorem is_windows_memoised_by_platform
    (Ambient : Type) (s1 s2 : str) (m : memo) (a : Ambient) :
  exists b1 b2 : bool,
    is_windows (on s1 m a) = Returned b1 (remember s1 (on s1 m a)) /\
    is_windows (on s2 NotYet a) = Returned b2 (remember s2 (on s2 NotYet a)) /\
    (forall q : query,
       twice_across q (on s1 m a) = Returned (b1, b1) (on s1 (Already q) a)) /\
    twice_across_cleared (Reports s2) (on s1 m a) =
      Returned (b1, b2) (on s2 (Already (Reports s2)) a).
Proof.
  exists (startswith (lower s1) (lit "win")),
         (startswith (lower s2) (lit "win")).
  destruct m; repeat split.
Qed.

(** C8: on a name of fewer than three characters the function returns
    [false]. *)
Theorem is_windows_short_name
    (Ambient : Type) (s : str) (m : memo) (a : Ambient) :
  (List.length s < 3)%nat ->
  is_windows (on s m a) = Returned false (remember s (on s m a)).
Proof.
  intros H. rewrite is_windows_ci. now rewrite ci_win_short.
Qed.

Lemma is_windows_short_name_witness :
  (List.length (lit "wi") < 3)%nat /\
  is_windows (on (lit "wi") NotYet tt) =
    Returned false (remember (lit "wi") (on (lit "wi") NotYet tt)).
Proof.
  split; [simpl; lia | apply is_windows_short_name; simpl; lia].
Defined.

(** C9, as stated, fails: uppercasing "w", dotless i, "n" gives "WIN", so the
    function returns [false] on the name and [true] on its uppercase form. *)
Lemma is_windows_upper_dotless_i :
  upper [0x77; dotless_i; 0x6E] = lit "WIN" /\
  is_windows (on [0x77; dotless_i; 0x6E] NotYet tt) =
    Returned false
      (remember [0x77; dotless_i; 0x6E] (on [0x77; dotless_i; 0x6E] NotYet tt)) /\
  is_windows (on (upper [0x77; dotless_i; 0x6E]) NotYet tt) =
    Returned true
      (remember (upper [0x77; dotless_i; 0x6E])
         (on (upper [0x77; dotless_i; 0x6E]) NotYet tt)).
Proof.
  repeat split.
Qed.

(** C9, amended: the function returns the same boolean [b] on a name and on
    its lowercase form.  On the uppercase form it returns [b] too, unless the
    name starts with "W" or "w", the dotless i (U+0131), "N" or "n"
    ([dotless_start]).  When the case of any characters of the name is changed
    (each one kept, lowercased or uppercased) it returns [b] as well, unless
    the name starts that way and its second character is uppercased.  In the
    excepted cases [b] is [false] and the other result is [true]. *)
Theorem is_windows_case_invariant
    (Ambient : Type) (s : str) (m : memo) (a : Ambient) :
  exists b : bool,
    is_windows (on s m a) = Returned b (remember s (on s m a)) /\
    is_windows (on (lower s) m a) =
      Returned b (remember (lower s) (on (lower s) m a)) /\
    is_windows (on (upper s) m a) =
      Returned (b || dotless_start s)
        (remember (upper s) (on (upper s) m a)) /\
    (forall how : nat -> case_change,
       is_windows (on (recase how s) m a) =
         Returned (b || (dotless_start s && is_Upper (how 1%nat)))
           (remember (recase how s) (on (recase how s) m a))) /\
    b && dotless_start s = false.
Proof.
  exists (ci_win s).
  split; [apply is_windows_ci |].
  split; [rewrite is_windows_on; now rewrite lower_lower_starts_win,
            lower_starts_win |].
  split; [rewrite is_windows_on;
          now rewrite lower_upper_starts_win, ci_win_dotless_split |].
  split; [| apply dotless_start_not_win].
  intros how. rewrite is_windows_ci. now rewrite recase_ci_win.
Qed.

(** C10: once the function returns [true] on a name it returns [true] on
    every extension of it.  The result is that on the first three characters
    of the name, and two names whose first three characters have the same
    lowercase form get the same result.  Every name that begins with "win" in
    any case, that is with characters whose lowercase form is "win", gets
    [true]; so does "winter". *)
Theorem is_windows_prefix_only (Ambient : Type) (m : memo) (a : Ambient) :
  (forall s t : str,
     is_windows (on s m a) = Returned true (remember s (on s m a)) ->
     is_windows (on (s ++ t) m a) =
       Returned true (remember (s ++ t) (on (s ++ t) m a))) /\
  (forall s : str, exists b : bool,
     is_windows (on s m a) = Returned b (remember s (on s m a)) /\
     is_windows (on (firstn 3 s) m a) =
       Returned b (remember (firstn 3 s) (on (firstn 3 s) m a))) /\
  (forall s s' : str,
     lower (firstn 3 s) = lower (firstn 3 s') ->
     exists b : bool,
       is_windows (on s m a) = Returned b (remember s (on s m a)) /\
       is_windows (on s' m a) = Returned b (remember s' (on s' m a))) /\
  (forall p rest : str,
     lower p = lit "win" ->
     is_windows (on (p ++ rest) m a) =
       Returned true (remember (p ++ rest) (on (p ++ rest) m a))) /\
  is_windows (on (lit "winter") m a) =
    Returned true (remember (lit "winter") (on (lit "winter") m a)).
Proof.
  split; [| split; [| split; [| split]]].
  - intros s t H. rewrite is_windows_ci in *.
    injection H as H. now rewrite (ci_win_app s t H).
  - intros s. exists (ci_win s). rewrite !is_windows_ci.
    now rewrite ci_win_firstn.
  - intros s s' H. exists (ci_win s). rewrite !is_windows_ci.
    split; [reflexivity |].
    rewrite <- (ci_win_firstn s), <- (ci_win_firstn s').
    now rewrite <- !lower_starts_win, H.
  - intros p rest H. rewrite is_windows_ci.
    now rewrite (ci_win_app p rest (lower_win_ci p H)).
  - rewrite is_windows_ci. reflexivity.
Qed.

Lemma is_windows_prefix_only_witness :
  is_windows (on (lit "Win") NotYet tt) =
    Returned true (remember (lit "Win") (on (lit "Win") NotYet tt)) /\
  is_windows (on (lit "Win" ++ lit "dows") NotYet tt) =
    Returned true
      (remember (lit "Win" ++ lit "dows") (on (lit "Win" ++ lit "dows") NotYet tt)).
Proof.
  assert (H : is_windows (on (lit "Win") NotYet tt) =
              Returned true (remember (lit "Win") (on (lit "Win") NotYet tt)))
    by reflexivity.
  split; [exact H |].
  exact (proj1 (is_windows_prefix_only unit NotYet tt) (lit "Win") (lit "dows") H).
Defined.

(** * Further properties of [is_windows] *)

(** X1: the function returns [true] exactly on the names of at least three
    characters whose first is "W" or "w", second "I" or "i" and third "N" or
    "n": of all of Unicode, no other character is lowercased into the
    prefix. *)
Theorem is_windows_true_iff_ascii_letters
    (Ambient : Type) (s : str) (m : memo) (a : Ambient) :
  exists b : bool,
    is_windows (on s m a) = Returned b (remember s (on s m a)) /\
    (b = true <->
     exists c0 c1 c2 rest,
       s = c0 :: c1 :: c2 :: rest /\
       (c0 = 0x57 \/ c0 = 0x77) /\ (c1 = 0x49 \/ c1 = 0x69) /\
       (c2 = 0x4E \/ c2 = 0x6E)).
Proof.
  exists (ci_win s). split; [apply is_windows_ci | apply ci_win_true_iff].
Qed.

(** X2: uppercasing a name changes what the function returns exactly when
    the name starts with "W" or "w", the dotless i (U+0131), "N" or "n"; the
    function then returns [false] on the name and [true] on its uppercase
    form. *)
Theorem is_windows_upper_differs_iff
    (Ambient : Type) (s : str) (m : memo) (a : Ambient) :
  exists b b' : bool,
    is_windows (on s m a) = Returned b (remember s (on s m a)) /\
    is_windows (on (upper s) m a) =
      Returned b' (remember (upper s) (on (upper s) m a)) /\
    (b <> b' <->
     exists c0 c2 rest,
       s = c0 :: dotless_i :: c2 :: rest /\
       (c0 = 0x57 \/ c0 = 0x77) /\ (c2 = 0x4E \/ c2 = 0x6E)) /\
    (b <> b' -> b = false /\ b' = true).
Proof.
  exists (ci_win s), (ci_win_dotless s).
  split; [apply is_windows_ci |].
  split; [rewrite is_windows_on; now rewrite lower_upper_starts_win |].
  split; [apply ci_win_dotless_differs |].
  intros H. apply ci_win_dotless_differs in H.
  destruct H as (c0 & c2 & rest & -> & Hw & Hn).
  destruct Hw as [-> | ->], Hn as [-> | ->]; split; reflexivity.
Qed.
